(** * pickupscan: the scan-ingest and admin-auth handlers

    A shallow embedding of the FastAPI handlers of the pickupscan
    application ([app/api/public.py], [app/api/admin_auth.py],
    [app/core/deps.py]) over the SQLModel tables of [app/db/models.py].

    - The relational store is a record of tables, each table a list of rows
      in storage order.  A database [Session] pairs the store with the list
      of statements executed through it, so that "no lookup was attempted"
      and "the only write is an insert" are statements about a handler run.
    - Handlers that talk to the database live in the state monad [DB].
    - [request.session] (the signed cookie) is a finite map from keys to
      integers; the only key the code ever writes is ["user_id"].
    - Python's truth-value testing ([if not x]) is the class [Truthy]. *)

From Stdlib Require Import ZArith PrimFloat Ascii Strings.Byte.
From stdpp Require Import base option list strings gmap.

Local Open Scope Z_scope.

(** ** Python truth-value testing *)

Class Truthy (A : Type) := truthy : A → bool.
Global Hint Mode Truthy ! : typeclass_instances.

(** [str]: only the empty string is false. *)
Global Instance str_truthy : Truthy string :=
  λ s, negb (bool_decide (s = "")).

(** [int]: only zero is false. *)
Global Instance int_truthy : Truthy Z :=
  λ n, negb (n =? 0).

(** [Optional[T]]: [None] is false, anything else is tested as a [T]. *)
Global Instance optional_truthy `{Truthy A} : Truthy (option A) :=
  λ o, match o with None => false | Some a => truthy a end.

(** ** The tables of [app/db/models.py] *)

Module User.
Record t := mk {
  id : Z;
  login : string;
  is_active : bool;
  is_superuser : bool;
  password_hash : string;
}.
End User.

Module Region.
Record t := mk {
  id : Z;
  name : string;
  code : string;
  public_id : string;
  is_active : bool;
}.
End Region.

Module Pharmacy.
Record t := mk {
  id : Z;
  name : string;
  address : option string;
  public_id : string;
  is_active : bool;
  region_id : option Z;
}.
End Pharmacy.

(** [ScanEvent] is the one model the handlers construct: its [id] is [None]
    until the row is inserted, and [scanned_at] is read from the clock by the
    field's [default_factory]. *)
Module ScanEvent.
Record t := mk {
  id : option Z;
  scanned_at : Z;
  pharmacy_id : Z;
  region_id : option Z;
  latitude : option float;
  longitude : option float;
  raw_qr : option string;
  user_agent : option string;
  ip_address : option string;
}.

Definition with_id (k : Z) (e : t) : t :=
  mk (Some k) (scanned_at e) (pharmacy_id e) (region_id e) (latitude e)
     (longitude e) (raw_qr e) (user_agent e) (ip_address e).
End ScanEvent.

(** Instances of a model class define neither [__bool__] nor [__len__]:
    every row object is true, so [if not row] only tests for [None]. *)
Global Instance user_truthy : Truthy User.t := λ _, true.
Global Instance region_truthy : Truthy Region.t := λ _, true.
Global Instance pharmacy_truthy : Truthy Pharmacy.t := λ _, true.

(** ** [generate_public_id] of [app/db/models.py] *)

(** The alphabet of [base64.urlsafe_b64encode]. *)
Definition urlsafe_alphabet : list ascii :=
  String.list_ascii_of_string
    "ABCDEFGHIJKLMNOPQRSTUVWXYZabcdefghijklmnopqrstuvwxyz0123456789-_".

Definition b64_char (n : Z) : ascii :=
  default "="%char (urlsafe_alphabet !! Z.to_nat n).

(** Three bytes give four six-bit groups; a last group of one or two bytes
    gives two or three, the unused low bits being zero. *)
Fixpoint b64_sextets (bs : list Z) : list Z :=
  match bs with
  | a :: b :: c :: rest =>
      a / 4 :: (a mod 4) * 16 + b / 16 :: (b mod 16) * 4 + c / 64 :: c mod 64
        :: b64_sextets rest
  | [a; b] => [a / 4; (a mod 4) * 16 + b / 16; (b mod 16) * 4]
  | [a] => [a / 4; (a mod 4) * 16]
  | [] => []
  end.

Definition b64_padding (n : nat) : list ascii :=
  match (n mod 3)%nat with
  | 1%nat => ["="%char; "="%char]
  | 2%nat => ["="%char]
  | _ => []
  end.

Definition byte_val (b : byte) : Z := Z.of_N (Byte.to_N b).

(** [base64.urlsafe_b64encode(tok)] *)
Definition urlsafe_b64encode (tok : list byte) : list ascii :=
  (b64_char <$> b64_sextets (byte_val <$> tok)) ++ b64_padding (length tok).

(** [s.rstrip(c)]: [s] without its trailing run of [c]. *)
Fixpoint rstrip (c : ascii) (s : list ascii) : list ascii :=
  match s with
  | [] => []
  | x :: s' =>
      match rstrip c s' with
      | [] => if decide (x = c) then [] else [x]
      | r => x :: r
      end
  end.

(** [secrets.token_urlsafe(nbytes)], the bytes of [secrets.token_bytes]
    being read from the operating system's random source [urandom]. *)
Definition token_urlsafe (nbytes : nat) (urandom : list byte) : string :=
  let tok := take nbytes urandom in
  String.string_of_list_ascii (rstrip "="%char (urlsafe_b64encode tok)).

(** [generate_public_id] *)
Definition generate_public_id (urandom : list byte) : string :=
  token_urlsafe 8 urandom.

(** ** The data store and the database session *)

Record Store := mkStore {
  users : list User.t;
  regions : list Region.t;
  pharmacies : list Pharmacy.t;
  scan_events : list ScanEvent.t;
  (** next value of the key sequence of the scan-event table *)
  scanevent_id_seq : Z;
}.

(** The statements the handlers send to the database. *)
Inductive Stmt :=
  | SelectUserByLogin (login : string)
  | GetUser (id : Z)
  | SelectPharmacyByPublicId (public_id : string)
  | GetRegion (id : Z)
  | InsertScanEvent (row : ScanEvent.t).

Definition is_write (q : Stmt) : bool :=
  match q with InsertScanEvent _ => true | _ => false end.

Record Session := mkSession {
  store : Store;
  executed : list Stmt;
}.

(** State monad over the database session. *)
Definition DB (A : Type) : Type := Session → A * Session.

Global Instance DB_ret : MRet DB := λ A a s, (a, s).
Global Instance DB_bind : MBind DB :=
  λ A B f m s, let '(a, s') := m s in f a s'.

Definition log (q : Stmt) : DB unit :=
  λ s, (tt, mkSession (store s) (executed s ++ [q])).

Definition query {A} (f : Store → A) : DB A := λ s, (f (store s), s).

(** [session.exec(select(User).where(User.login == login)).first()] *)
Definition first_user_by_login (login : string) (db : Store) : option User.t :=
  find (λ u, bool_decide (User.login u = login)) (users db).

(** [session.get(User, id)] *)
Definition get_user (id : Z) (db : Store) : option User.t :=
  find (λ u, User.id u =? id) (users db).

(** [session.exec(select(Pharmacy).where(Pharmacy.public_id == p)).first()] *)
Definition first_pharmacy_by_public_id (p : string) (db : Store)
  : option Pharmacy.t :=
  find (λ ph, bool_decide (Pharmacy.public_id ph = p)) (pharmacies db).

(** [session.get(Region, id)] *)
Definition get_region (id : Z) (db : Store) : option Region.t :=
  find (λ r, Region.id r =? id) (regions db).

Definition exec_first_user (login : string) : DB (option User.t) :=
  log (SelectUserByLogin login) ;; query (first_user_by_login login).

Definition session_get_user (id : Z) : DB (option User.t) :=
  log (GetUser id) ;; query (get_user id).

Definition exec_first_pharmacy (p : string) : DB (option Pharmacy.t) :=
  log (SelectPharmacyByPublicId p) ;; query (first_pharmacy_by_public_id p).

Definition session_get_region (id : Z) : DB (option Region.t) :=
  log (GetRegion id) ;; query (get_region id).

(** [session.add(scan); session.commit(); session.refresh(scan)]: the row is
    appended under the next key of the sequence and read back. *)
Definition insert_scan_event (e : ScanEvent.t) (db : Store) : Store :=
  mkStore (users db) (regions db) (pharmacies db)
          (scan_events db ++ [ScanEvent.with_id (scanevent_id_seq db) e])
          (scanevent_id_seq db + 1).

Definition add_commit_refresh (e : ScanEvent.t) : DB ScanEvent.t :=
  λ s, let row := ScanEvent.with_id (scanevent_id_seq (store s)) e in
       (row, mkSession (insert_scan_event e (store s))
                       (executed s ++ [InsertScanEvent row])).

(** ** Requests and responses *)

(** The JSON body of [POST /api/scan] as the handler's docstring gives it.
    [data.get(k)] is [None] when the key is absent or [null]. *)
Record ScanPayload := mkPayload {
  pharmacy_public_id : option string;
  latitude : option float;
  longitude : option float;
  raw_qr : option string;
}.

Record Address := mkAddress { host : string; port : Z }.

Record Request := mkRequest {
  json : ScanPayload;
  client : option Address;
  (** header names arrive in lower case *)
  headers : list (string * string);
  (** [request.session], the signed cookie's mapping *)
  session : gmap string Z;
}.

(** [request.headers.get(k)]: the value of the first header named [k]. *)
Definition headers_get (k : string) (request : Request) : option string :=
  snd <$> find (λ h, bool_decide (h.1 = k)) (headers request).

Inductive JSON :=
  | JNull
  | JBool (b : bool)
  | JInt (n : Z)
  | JStr (s : string).

Inductive Response :=
  | JSONResponse (content : list (string * JSON)) (status_code : Z)
  | TemplateResponse (name : string) (error : option string) (status_code : Z)
  | RedirectResponse (url : string) (status_code : Z)
  | PlainTextResponse (content : string) (status_code : Z).

(** The answer of the application to an exception that escapes a handler
    (Starlette's [ServerErrorMiddleware], debug mode off). *)
Definition internal_server_error : Response :=
  PlainTextResponse "Internal Server Error" 500.

Record HTTPException := mkHTTPException { exc_status_code : Z }.

Definition HTTP_401_UNAUTHORIZED : Z := 401.

Inductive Outcome (A : Type) :=
  | Returned (a : A)
  | Raised (e : HTTPException).
Arguments Returned {A} a.
Arguments Raised {A} e.

(** [if not x: <e>] followed by code that uses [x]; also
    [<k x> if x else <e>].  [x] is an optional value, tested for truth. *)
Definition if_truthy `{Truthy A} {B} (x : option A) (k : A → B) (e : B) : B :=
  match x with
  | Some a => if truthy a then k a else e
  | None => e
  end.

(** ** [app/api/public.py] *)

Definition json_of_id (k : option Z) : JSON :=
  match k with Some n => JInt n | None => JNull end.

Definition missing_pharmacy_public_id : Response :=
  JSONResponse [("ok", JBool false); ("error", JStr "Missing pharmacy_public_id")] 400.

Definition unknown_pharmacy : Response :=
  JSONResponse [("ok", JBool false); ("error", JStr "Unknown pharmacy")] 400.

Definition scan_ok (scan : ScanEvent.t) : Response :=
  JSONResponse [("ok", JBool true); ("scan_id", json_of_id (ScanEvent.id scan))] 200.

(** [show_scanner]: [GET /]. *)
Definition show_scanner (request : Request) : Response :=
  TemplateResponse "scan.html" None 200.

(** [api_scan]: [POST /api/scan].  [utcnow] is the clock reading taken when
    the [ScanEvent] object is built. *)
Definition api_scan (request : Request) (utcnow : Z) : DB Response :=
  let data := json request in
  let pharmacy_public_id := pharmacy_public_id data in
  let latitude := latitude data in
  let longitude := longitude data in
  let raw_qr := raw_qr data in
  (* Public ID must be present *)
  if_truthy pharmacy_public_id (λ pharmacy_public_id,
    (* Find pharmacy by its opaque public code *)
    pharmacy ← exec_first_pharmacy pharmacy_public_id;
    if_truthy pharmacy (λ pharmacy,
      (* Determine region automatically (if pharmacy is linked to one) *)
      region ← if_truthy (Pharmacy.region_id pharmacy)
                 session_get_region (mret None);
      (* Additional metadata *)
      let ip_address := host <$> client request in
      let user_agent := headers_get "user-agent" request in
      (* Create and store event *)
      let scan :=
        ScanEvent.mk None utcnow (Pharmacy.id pharmacy) (Region.id <$> region)
                     latitude longitude raw_qr user_agent ip_address in
      scan ← add_commit_refresh scan;
      mret (scan_ok scan))
    (mret unknown_pharmacy))
  (mret missing_pharmacy_public_id).

(** ** [app/core/deps.py] *)

Definition unauthorized : HTTPException := mkHTTPException HTTP_401_UNAUTHORIZED.

(** [get_current_admin]: the dependency of the admin-only routes. *)
Definition get_current_admin (request : Request) : DB (Outcome User.t) :=
  let user_id := session request !! "user_id" in
  if_truthy user_id (λ user_id,
    user ← session_get_user user_id;
    if_truthy user (λ user,
      if negb (User.is_active user) || negb (User.is_superuser user)
      then (* Found user is not valid admin. *)
        mret (Raised unauthorized)
      else mret (Returned user))
    (mret (Raised unauthorized)))
  (* No user in session → not authenticated. *)
  (mret (Raised unauthorized)).

(** ** [app/api/admin_auth.py] *)

(** A handler that may write [request.session] returns the mapping it leaves
    behind next to its response. *)
Definition with_session (request : Request) (m : gmap string Z) : Request :=
  mkRequest (json request) (client request) (headers request) m.

(** [admin_login_form]: [GET /admin/login]. *)
Definition admin_login_form (request : Request) : Response :=
  TemplateResponse "admin_login.html" None 200.

Definition invalid_credentials : Response :=
  TemplateResponse "admin_login.html" (Some "Invalid credentials") 400.

(** [admin_logout]: [GET /admin/logout]. *)
Definition admin_logout (request : Request) : Response * gmap string Z :=
  (RedirectResponse "/admin/login" 303, ∅).

Section AdminLogin.
(** [app/core/security.py]: [verify_password password password_hash] is
    passlib's bcrypt check.  It returns [True] or [False], or it raises
    ([None]): the bcrypt handler refuses a password that contains a NUL
    byte, and a stored hash it cannot identify. *)
Variable verify_password : string → string → option bool.

(** [admin_login]: [POST /admin/login] with the form fields [login] and
    [password].  The handler does not catch what [verify_password] raises:
    the exception escapes it before the session is written, and the
    application answers with [internal_server_error]. *)
Definition admin_login (request : Request) (login password : string)
  : DB (Response * gmap string Z) :=
  user ← exec_first_user login;
  if_truthy user (λ user,
    match verify_password password (User.password_hash user) with
    | None => mret (internal_server_error, session request)
    | Some verified =>
        if negb verified || negb (User.is_superuser user)
        then mret (invalid_credentials, session request)
        else
          (* Store user id in session cookie. *)
          mret (RedirectResponse "/admin" 303,
                <["user_id" := User.id user]> (session request))
    end)
  (* Generic error message to avoid leaking which part failed. *)
  (mret (invalid_credentials, session request)).

(** The routes that the routers included by [app/main.py] declare in
    [public.py] and [admin_auth.py]. *)
Inductive Route :=
  | GET_root
  | POST_api_scan (utcnow : Z)
  | GET_admin_login
  | POST_admin_login (login password : string)
  | GET_admin_logout.

Definition serve (route : Route) (request : Request)
  : DB (Response * gmap string Z) :=
  match route with
  | GET_root => mret (show_scanner request, session request)
  | POST_api_scan utcnow =>
      response ← api_scan request utcnow; mret (response, session request)
  | GET_admin_login => mret (admin_login_form request, session request)
  | POST_admin_login login password => admin_login request login password
  | GET_admin_logout => mret (admin_logout request)
  end.
End AdminLogin.

(** * Vocabulary of the properties *)

(** ** Invariants of the data model *)

(** A public id is filled in by [generate_public_id], which returns
    [secrets.token_urlsafe(8)]: eleven URL-safe characters, never the empty
    string. *)
Definition tokens_generated (db : Store) : Prop :=
  Forall (λ ph, Pharmacy.public_id ph ≠ "") (pharmacies db).

(** A primary key is left [None] by the model and assigned by the database
    from a key sequence that starts at 1: no row has the key [0]. *)
Definition keys_assigned {A} (key : A → Z) (rows : list A) : Prop :=
  Forall (λ row, key row ≠ 0) rows.

(** ** What [api_scan] computes for a pharmacy row *)

(** The region lookup of [api_scan]. *)
Definition resolved_region (pharmacy : Pharmacy.t) (db : Store) : option Region.t :=
  if_truthy (Pharmacy.region_id pharmacy) (λ rid, get_region rid db) None.

Definition region_stmts (pharmacy : Pharmacy.t) : list Stmt :=
  if_truthy (Pharmacy.region_id pharmacy) (λ rid, [GetRegion rid]) [].

(** The [ScanEvent] object [api_scan] builds. *)
Definition scan_of (request : Request) (utcnow : Z) (pharmacy : Pharmacy.t)
    (db : Store) : ScanEvent.t :=
  ScanEvent.mk None utcnow (Pharmacy.id pharmacy)
    (Region.id <$> resolved_region pharmacy db)
    (latitude (json request)) (longitude (json request)) (raw_qr (json request))
    (headers_get "user-agent" request) (host <$> client request).

(** ** Switching every [is_active] flag on *)

Definition activate_pharmacy (ph : Pharmacy.t) : Pharmacy.t :=
  Pharmacy.mk (Pharmacy.id ph) (Pharmacy.name ph) (Pharmacy.address ph)
              (Pharmacy.public_id ph) true (Pharmacy.region_id ph).

Definition activate_region (r : Region.t) : Region.t :=
  Region.mk (Region.id r) (Region.name r) (Region.code r) (Region.public_id r)
            true.

(** The store with every pharmacy and every region made active. *)
Definition activate (db : Store) : Store :=
  mkStore (users db) (activate_region <$> regions db)
          (activate_pharmacy <$> pharmacies db) (scan_events db)
          (scanevent_id_seq db).

Definition activate_session (s : Session) : Session :=
  mkSession (activate (store s)) (executed s).

(** ** The three ways a login attempt is turned down *)

Inductive LoginFailure (verify_password : string → string → option bool)
    (db : Store) (login password : string) : Prop :=
  | no_such_user :
      first_user_by_login login db = None →
      LoginFailure verify_password db login password
  | password_mismatch user :
      first_user_by_login login db = Some user →
      verify_password password (User.password_hash user) = Some false →
      LoginFailure verify_password db login password
  | not_superuser user :
      first_user_by_login login db = Some user →
      verify_password password (User.password_hash user) = Some true →
      User.is_superuser user = false →
      LoginFailure verify_password db login password.

(** ** Base64 groups *)

Definition is_byte_val (b : Z) : Prop := 0 ≤ b < 256.
Definition is_sextet (s : Z) : Prop := 0 ≤ s < 64.

(** The inverse of [b64_sextets] on six-bit groups. *)
Fixpoint b64_octets (ss : list Z) : list Z :=
  match ss with
  | s1 :: s2 :: s3 :: s4 :: rest =>
      s1 * 4 + s2 / 16 :: (s2 mod 16) * 16 + s3 / 4 :: (s3 mod 4) * 64 + s4
        :: b64_octets rest
  | [s1; s2; s3] => [s1 * 4 + s2 / 16; (s2 mod 16) * 16 + s3 / 4]
  | [s1; s2] => [s1 * 4 + s2 / 16]
  | _ => []
  end.

(** ** Referential integrity of the scan-event table *)

(** Every scan event references a pharmacy row, and a region row when its
    [region_id] is set (the two foreign keys of [ScanEvent]). *)
Definition references_ok (db : Store) : Prop :=
  Forall (λ e,
    (∃ ph, ph ∈ pharmacies db ∧ Pharmacy.id ph = ScanEvent.pharmacy_id e)
    ∧ (∀ rid, ScanEvent.region_id e = Some rid →
          ∃ r, r ∈ regions db ∧ Region.id r = rid))
    (scan_events db).

(** [response.status_code] *)
Definition status_code (r : Response) : Z :=
  match r with
  | JSONResponse _ c | TemplateResponse _ _ c | RedirectResponse _ c
  | PlainTextResponse _ c => c
  end.

(** ** Example data *)

Definition ex_region : Region.t :=
  Region.mk 1 "NRW West" "NW1" "Zk3vQ9xT1aB" true.

Definition ex_region_off : Region.t :=
  Region.mk 2 "Berlin" "BER" "p0Rt4lXyZ_w" false.

Definition ex_pharmacy : Pharmacy.t :=
  Pharmacy.mk 7 "Adler Apotheke" (Some "Hauptstr. 1") "abc123" true (Some 1).

(** A pharmacy whose region row is gone, one without a region, and an
    inactive one in an inactive region. *)
Definition ex_orphan : Pharmacy.t :=
  Pharmacy.mk 8 "Loewen Apotheke" None "cfc2J4gkTqE" true (Some 5).

Definition ex_unlinked : Pharmacy.t :=
  Pharmacy.mk 9 "Stern Apotheke" None "Qw8-_x2LmN0" true None.

Definition ex_closed : Pharmacy.t :=
  Pharmacy.mk 4 "Baeren Apotheke" None "Hh7dK2mPq0s" false (Some 2).

Definition ex_admin : User.t := User.mk 1 "root" true true "hash:s3cret".
Definition ex_clerk : User.t := User.mk 2 "clerk" true false "hash:letmein".
Definition ex_retired : User.t := User.mk 3 "old-admin" false true "hash:hunter2".

Definition ex_store : Store :=
  mkStore [ex_admin; ex_clerk; ex_retired] [ex_region; ex_region_off]
          [ex_pharmacy; ex_orphan; ex_unlinked; ex_closed] [] 12.

Definition ex_session : Session := mkSession ex_store [].

Definition ex_headers : list (string * string) :=
  [("host", "scan.example"); ("user-agent", "Mozilla/5.0")].

Definition ex_client : option Address := Some (mkAddress "203.0.113.9" 51234).

Definition ex_scan_request (token : option string) : Request :=
  mkRequest (mkPayload token (Some 53.5%float) (Some 10%float) (Some "QR-TEXT"))
            ex_client ex_headers ∅.

Definition ex_admin_request (cookie : gmap string Z) : Request :=
  mkRequest (mkPayload None None None None) ex_client ex_headers cookie.

(** A password checker for the examples: the stored hash is the password
    behind a fixed prefix, and, as bcrypt does, the checker raises on a
    password that contains a NUL byte. *)
Definition ex_verify_password (password password_hash : string) : option bool :=
  if bool_decide (Ascii.zero ∈ String.list_ascii_of_string password)
  then None
  else Some (bool_decide (password_hash = "hash:" +:+ password)).

(** The password [a], NUL, [b]. *)
Definition ex_nul_password : string :=
  String.String "a" (String.String Ascii.zero (String.String "b" String.EmptyString)).

(** Ten bytes read from the random source. *)
Definition ex_urandom : list byte :=
  [x71; xf7; x36; x27; x88; x24; x4e; xa1; x00; xff]%byte.

(** * Properties *)

(** ** Truth-value testing *)

Lemma truthy_str_iff (s : string) : truthy s = true ↔ s ≠ "".
Proof.
  unfold truthy, str_truthy. rewrite negb_true_iff, bool_decide_eq_false. done.
Qed.

Lemma truthy_int_iff (n : Z) : truthy n = true ↔ n ≠ 0.
Proof.
  unfold truthy, int_truthy. rewrite negb_true_iff. apply Z.eqb_neq.
Qed.

Lemma truthy_Some `{Truthy A} (a : A) : truthy (Some a) = truthy a.
Proof. reflexivity. Qed.

Lemma if_truthy_false `{Truthy A} {B} (x : option A) (k : A → B) (e : B) :
  truthy x = false → if_truthy x k e = e.
Proof.
  destruct x as [a|]; simpl; [|done]. rewrite truthy_Some. by intros ->.
Qed.

Lemma if_truthy_true `{Truthy A} {B} (a : A) (k : A → B) (e : B) :
  truthy a = true → if_truthy (Some a) k e = k a.
Proof. simpl. by intros ->. Qed.

(** ** Lookups *)

Lemma find_fmap {A B} (p : B → bool) (f : A → B) (l : list A) :
  find p (f <$> l) = f <$> find (λ a, p (f a)) l.
Proof.
  induction l as [|a l IH]; [done|]. simpl.
  destruct (p (f a)); [done | exact IH].
Qed.

Lemma get_region_id rid db region :
  get_region rid db = Some region → Region.id region = rid ∧ region ∈ regions db.
Proof.
  unfold get_region. intros Hf. apply find_some in Hf as [Hin Hf].
  split; [by apply Z.eqb_eq | by apply list_elem_of_In].
Qed.

Lemma get_user_id uid db user :
  get_user uid db = Some user → User.id user = uid ∧ user ∈ users db.
Proof.
  unfold get_user. intros Hf. apply find_some in Hf as [Hin Hf].
  split; [by apply Z.eqb_eq | by apply list_elem_of_In].
Qed.

Lemma first_pharmacy_public_id tok db pharmacy :
  first_pharmacy_by_public_id tok db = Some pharmacy →
  Pharmacy.public_id pharmacy = tok ∧ pharmacy ∈ pharmacies db.
Proof.
  unfold first_pharmacy_by_public_id. intros Hf.
  apply find_some in Hf as [Hin Hf]. apply bool_decide_eq_true in Hf.
  split; [done | by apply list_elem_of_In].
Qed.

(** Under the invariants, a token that names a pharmacy is true as a truth
    value, and so is a key that names a region or a user. *)
Lemma named_token_truthy tok db pharmacy :
  tokens_generated db →
  first_pharmacy_by_public_id tok db = Some pharmacy →
  truthy tok = true.
Proof.
  intros Hinv Hf. apply first_pharmacy_public_id in Hf as [<- Hin].
  apply truthy_str_iff. by apply (proj1 (Forall_forall _ _) Hinv).
Qed.

Lemma region_key_truthy rid db region :
  keys_assigned Region.id (regions db) →
  get_region rid db = Some region →
  truthy rid = true.
Proof.
  intros Hinv Hg. apply get_region_id in Hg as [<- Hin].
  apply truthy_int_iff. by apply (proj1 (Forall_forall _ _) Hinv).
Qed.

Lemma user_key_truthy uid db user :
  keys_assigned User.id (users db) →
  get_user uid db = Some user →
  truthy uid = true.
Proof.
  intros Hinv Hg. apply get_user_id in Hg as [<- Hin].
  apply truthy_int_iff. by apply (proj1 (Forall_forall _ _) Hinv).
Qed.

Lemma ex_store_tokens_generated : tokens_generated ex_store.
Proof. unfold tokens_generated. simpl. repeat constructor; discriminate. Qed.

Lemma ex_store_region_keys : keys_assigned Region.id (regions ex_store).
Proof. unfold keys_assigned. simpl. repeat constructor; discriminate. Qed.

Lemma ex_store_user_keys : keys_assigned User.id (users ex_store).
Proof. unfold keys_assigned. simpl. repeat constructor; discriminate. Qed.

(** ** Running [api_scan] *)

Lemma api_scan_falsy request utcnow s :
  truthy (pharmacy_public_id (json request)) = false →
  api_scan request utcnow s = (missing_pharmacy_public_id, s).
Proof.
  intros Hf. unfold api_scan. cbv zeta. by rewrite if_truthy_false.
Qed.

Lemma api_scan_not_found request utcnow s tok :
  pharmacy_public_id (json request) = Some tok →
  truthy tok = true →
  first_pharmacy_by_public_id tok (store s) = None →
  api_scan request utcnow s
  = (unknown_pharmacy,
     mkSession (store s) (executed s ++ [SelectPharmacyByPublicId tok])).
Proof.
  intros Hp Ht Hn. unfold api_scan. cbv zeta. rewrite Hp, if_truthy_true by done.
  unfold mbind, DB_bind, exec_first_pharmacy, log, query; simpl.
  by rewrite Hn.
Qed.

Lemma api_scan_found request utcnow s tok pharmacy :
  pharmacy_public_id (json request) = Some tok →
  truthy tok = true →
  first_pharmacy_by_public_id tok (store s) = Some pharmacy →
  api_scan request utcnow s
  = (scan_ok (ScanEvent.with_id (scanevent_id_seq (store s))
                (scan_of request utcnow pharmacy (store s))),
     mkSession (insert_scan_event (scan_of request utcnow pharmacy (store s))
                  (store s))
       (executed s ++ [SelectPharmacyByPublicId tok] ++ region_stmts pharmacy
          ++ [InsertScanEvent
                (ScanEvent.with_id (scanevent_id_seq (store s))
                   (scan_of request utcnow pharmacy (store s)))])).
Proof.
  intros Hp Ht Hf. unfold api_scan. cbv zeta. rewrite Hp, if_truthy_true by done.
  unfold mbind, DB_bind, exec_first_pharmacy, log, query; simpl.
  rewrite Hf; simpl.
  unfold scan_of, resolved_region, region_stmts, add_commit_refresh.
  destruct (Pharmacy.region_id pharmacy) as [rid|]; simpl.
  - destruct (truthy rid); simpl; by rewrite <- ?(assoc_L (++)).
  - by rewrite <- ?(assoc_L (++)).
Qed.

(** What a successful run leaves behind, in the shape the theorems below
    state it. *)
Lemma api_scan_found_row request utcnow s tok pharmacy :
  pharmacy_public_id (json request) = Some tok →
  truthy tok = true →
  first_pharmacy_by_public_id tok (store s) = Some pharmacy →
  ∃ k row s',
    api_scan request utcnow s
    = (JSONResponse [("ok", JBool true); ("scan_id", JInt k)] 200, s')
    ∧ scan_events (store s') = scan_events (store s) ++ [row]
    ∧ row = ScanEvent.with_id k (scan_of request utcnow pharmacy (store s)).
Proof.
  intros Hp Ht Hf.
  exists (scanevent_id_seq (store s)),
    (ScanEvent.with_id (scanevent_id_seq (store s))
       (scan_of request utcnow pharmacy (store s))).
  eexists. split; [by apply (api_scan_found _ _ _ tok pharmacy)|]. done.
Qed.

(** [api_scan] on the store with every flag switched on: the same response,
    the same statements, and the same store with every flag switched on. *)
Lemma first_pharmacy_activate tok db :
  first_pharmacy_by_public_id tok (activate db)
  = activate_pharmacy <$> first_pharmacy_by_public_id tok db.
Proof. unfold first_pharmacy_by_public_id. simpl. by rewrite find_fmap. Qed.

Lemma get_region_activate rid db :
  get_region rid (activate db) = activate_region <$> get_region rid db.
Proof. unfold get_region. simpl. by rewrite find_fmap. Qed.

Lemma scan_of_activate request utcnow pharmacy db :
  scan_of request utcnow (activate_pharmacy pharmacy) (activate db)
  = scan_of request utcnow pharmacy db.
Proof.
  unfold scan_of, resolved_region. simpl.
  destruct (Pharmacy.region_id pharmacy) as [rid|]; simpl; [|done].
  destruct (truthy rid); [|done].
  rewrite get_region_activate. by destruct (get_region rid db).
Qed.

Lemma api_scan_activate request utcnow s :
  api_scan request utcnow (activate_session s)
  = ((api_scan request utcnow s).1,
     activate_session (api_scan request utcnow s).2).
Proof.
  destruct (pharmacy_public_id (json request)) as [tok|] eqn:Hp.
  2:{ assert (truthy (pharmacy_public_id (json request)) = false) as Hfalsy
        by (by rewrite Hp).
      by rewrite !api_scan_falsy. }
  destruct (truthy tok) eqn:Ht.
  2:{ assert (truthy (pharmacy_public_id (json request)) = false) as Hfalsy
        by (by rewrite Hp).
      by rewrite !api_scan_falsy. }
  destruct (first_pharmacy_by_public_id tok (store s)) as [ph|] eqn:Hf.
  - rewrite (api_scan_found _ _ (activate_session s) tok (activate_pharmacy ph));
      [|done..|simpl; by rewrite first_pharmacy_activate, Hf].
    rewrite (api_scan_found _ _ s tok ph) by done.
    simpl. rewrite scan_of_activate. done.
  - rewrite (api_scan_not_found _ _ (activate_session s) tok);
      [|done..|simpl; by rewrite first_pharmacy_activate, Hf].
    by rewrite (api_scan_not_found _ _ s tok).
Qed.

(** ** The scan-ingest handler *)

(** C1.  On a store that satisfies the invariants of the data model, a
    request whose [pharmacy_public_id] matches a pharmacy linked to an active
    region succeeds, whatever latitude, longitude and raw QR text it carries:
    the response is [{"ok": true, "scan_id": k}] with status 200, exactly one
    row is appended to the scan-event table, [k] is that row's key, and the
    row holds the pharmacy's id, the region's id, the submitted latitude,
    longitude and raw QR text unchanged, the [user-agent] header and the
    client's host. *)
Theorem api_scan_success request utcnow s tok pharmacy rid region :
  tokens_generated (store s) →
  keys_assigned Region.id (regions (store s)) →
  pharmacy_public_id (json request) = Some tok →
  first_pharmacy_by_public_id tok (store s) = Some pharmacy →
  Pharmacy.region_id pharmacy = Some rid →
  get_region rid (store s) = Some region →
  Region.is_active region = true →
  ∃ k row s',
    api_scan request utcnow s
    = (JSONResponse [("ok", JBool true); ("scan_id", JInt k)] 200, s')
    ∧ scan_events (store s') = scan_events (store s) ++ [row]
    ∧ ScanEvent.id row = Some k
    ∧ ScanEvent.pharmacy_id row = Pharmacy.id pharmacy
    ∧ ScanEvent.region_id row = Some (Region.id region)
    ∧ ScanEvent.latitude row = latitude (json request)
    ∧ ScanEvent.longitude row = longitude (json request)
    ∧ ScanEvent.raw_qr row = raw_qr (json request)
    ∧ ScanEvent.user_agent row = headers_get "user-agent" request
    ∧ ScanEvent.ip_address row = host <$> client request.
Proof.
  intros Htok Hkeys Hp Hf Hr Hg _.
  pose proof (named_token_truthy _ _ _ Htok Hf) as Ht.
  pose proof (region_key_truthy _ _ _ Hkeys Hg) as Hz.
  destruct (api_scan_found_row request utcnow s tok pharmacy Hp Ht Hf)
    as (k & row & s' & Hrun & Hev & ->).
  exists k, (ScanEvent.with_id k (scan_of request utcnow pharmacy (store s))), s'.
  split; [exact Hrun|]. split; [exact Hev|].
  simpl. unfold resolved_region. rewrite Hr, if_truthy_true, Hg by done.
  repeat split; done.
Qed.

Lemma api_scan_success_witness :
  ∃ s',
    api_scan (ex_scan_request (Some "abc123")) 1700000000 ex_session
    = (JSONResponse [("ok", JBool true); ("scan_id", JInt 12)] 200, s')
    ∧ scan_events (store s')
      = [ScanEvent.mk (Some 12) 1700000000 7 (Some 1) (Some 53.5%float)
           (Some 10%float) (Some "QR-TEXT") (Some "Mozilla/5.0")
           (Some "203.0.113.9")].
Proof.
  destruct (api_scan_success (ex_scan_request (Some "abc123")) 1700000000
              ex_session "abc123" ex_pharmacy 1 ex_region)
    as (k & row & s' & Hrun & Hev & _);
    [exact ex_store_tokens_generated | exact ex_store_region_keys
    | reflexivity.. |].
  exists s'. vm_compute in Hrun. injection Hrun as Hk Hs. subst k s'.
  split; reflexivity.
Defined.

(** C2.  A request whose [pharmacy_public_id] is missing or empty is
    answered with status 400 and the body
    [{"ok": false, "error": "Missing pharmacy_public_id"}]; the database
    session comes back as it went in: no statement was executed, so no
    pharmacy lookup was attempted, and the store, hence the scan-event
    table, is the same. *)
Theorem api_scan_missing_field request utcnow s :
  pharmacy_public_id (json request) = None
  ∨ pharmacy_public_id (json request) = Some "" →
  api_scan request utcnow s
  = (JSONResponse [("ok", JBool false);
                   ("error", JStr "Missing pharmacy_public_id")] 400, s)
  ∧ executed (api_scan request utcnow s).2 = executed s
  ∧ scan_events (store (api_scan request utcnow s).2) = scan_events (store s).
Proof.
  intros Hm.
  assert (api_scan request utcnow s = (missing_pharmacy_public_id, s)) as ->.
  { apply api_scan_falsy. by destruct Hm as [-> | ->]. }
  done.
Qed.

Lemma api_scan_missing_field_witness :
  api_scan (ex_scan_request None) 1700000000 ex_session
  = (JSONResponse [("ok", JBool false);
                   ("error", JStr "Missing pharmacy_public_id")] 400, ex_session)
  ∧ api_scan (ex_scan_request (Some "")) 1700000000 ex_session
  = (JSONResponse [("ok", JBool false);
                   ("error", JStr "Missing pharmacy_public_id")] 400, ex_session).
Proof.
  split.
  - apply (api_scan_missing_field (ex_scan_request None) 1700000000 ex_session).
    left. reflexivity.
  - apply (api_scan_missing_field (ex_scan_request (Some "")) 1700000000 ex_session).
    right. reflexivity.
Defined.

(** C3, as amended.  A present, non-empty [pharmacy_public_id] that matches
    no pharmacy is answered with status 400 and the body
    [{"ok": false, "error": "Unknown pharmacy"}]; the only statement executed
    is the pharmacy lookup, and the store is unchanged, so no scan event is
    created. *)
Theorem api_scan_unknown_pharmacy request utcnow s tok :
  pharmacy_public_id (json request) = Some tok →
  tok ≠ "" →
  first_pharmacy_by_public_id tok (store s) = None →
  (api_scan request utcnow s).1
  = JSONResponse [("ok", JBool false); ("error", JStr "Unknown pharmacy")] 400
  ∧ store (api_scan request utcnow s).2 = store s
  ∧ executed (api_scan request utcnow s).2
    = executed s ++ [SelectPharmacyByPublicId tok].
Proof.
  intros Hp Ht Hn. apply truthy_str_iff in Ht.
  by rewrite (api_scan_not_found _ _ _ tok Hp Ht Hn).
Qed.

Lemma api_scan_unknown_pharmacy_witness :
  (api_scan (ex_scan_request (Some "nosuchtoken")) 1700000000 ex_session).1
  = JSONResponse [("ok", JBool false); ("error", JStr "Unknown pharmacy")] 400
  ∧ store (api_scan (ex_scan_request (Some "nosuchtoken")) 1700000000 ex_session).2
    = ex_store.
Proof.
  destruct (api_scan_unknown_pharmacy
              (ex_scan_request (Some "nosuchtoken")) 1700000000 ex_session
              "nosuchtoken") as (Hr & Hs & _);
    [reflexivity | discriminate | reflexivity |].
  split; [exact Hr | exact Hs].
Defined.

(** C3 as stated fails on the empty token: it matches no pharmacy of the
    example store, yet the answer is the missing-field error, not the
    unknown-pharmacy error. *)
Lemma api_scan_empty_token_is_not_unknown :
  pharmacy_public_id (json (ex_scan_request (Some ""))) = Some ""
  ∧ first_pharmacy_by_public_id "" (store ex_session) = None
  ∧ (api_scan (ex_scan_request (Some "")) 1700000000 ex_session).1
    = JSONResponse [("ok", JBool false);
                    ("error", JStr "Missing pharmacy_public_id")] 400
  ∧ (api_scan (ex_scan_request (Some "")) 1700000000 ex_session).1
    ≠ JSONResponse [("ok", JBool false); ("error", JStr "Unknown pharmacy")] 400.
Proof. repeat split; [reflexivity..|]. vm_compute. discriminate. Qed.

(** C7.  On a store whose public ids are generated, a request naming a
    pharmacy whose region reference points at no region row, or that has no
    region reference, still succeeds: one row is appended for that pharmacy,
    and its [region_id] is [None]. *)
Theorem api_scan_region_absent request utcnow s tok pharmacy :
  tokens_generated (store s) →
  pharmacy_public_id (json request) = Some tok →
  first_pharmacy_by_public_id tok (store s) = Some pharmacy →
  Pharmacy.region_id pharmacy = None
  ∨ (∃ rid, Pharmacy.region_id pharmacy = Some rid
            ∧ get_region rid (store s) = None) →
  ∃ k row s',
    api_scan request utcnow s
    = (JSONResponse [("ok", JBool true); ("scan_id", JInt k)] 200, s')
    ∧ scan_events (store s') = scan_events (store s) ++ [row]
    ∧ ScanEvent.id row = Some k
    ∧ ScanEvent.pharmacy_id row = Pharmacy.id pharmacy
    ∧ ScanEvent.region_id row = None.
Proof.
  intros Htok Hp Hf Hr.
  pose proof (named_token_truthy _ _ _ Htok Hf) as Ht.
  destruct (api_scan_found_row request utcnow s tok pharmacy Hp Ht Hf)
    as (k & row & s' & Hrun & Hev & ->).
  exists k, (ScanEvent.with_id k (scan_of request utcnow pharmacy (store s))), s'.
  split; [exact Hrun|]. split; [exact Hev|].
  simpl. unfold resolved_region.
  destruct Hr as [-> | (rid & -> & Hg)]; simpl.
  - done.
  - destruct (truthy rid); by rewrite ?Hg.
Qed.

Lemma api_scan_region_absent_witness :
  (∃ k row s',
    api_scan (ex_scan_request (Some "cfc2J4gkTqE")) 1700000000 ex_session
    = (JSONResponse [("ok", JBool true); ("scan_id", JInt k)] 200, s')
    ∧ scan_events (store s') = scan_events (store ex_session) ++ [row]
    ∧ ScanEvent.id row = Some k
    ∧ ScanEvent.pharmacy_id row = 8
    ∧ ScanEvent.region_id row = None)
  ∧ (∃ k row s',
    api_scan (ex_scan_request (Some "Qw8-_x2LmN0")) 1700000000 ex_session
    = (JSONResponse [("ok", JBool true); ("scan_id", JInt k)] 200, s')
    ∧ scan_events (store s') = scan_events (store ex_session) ++ [row]
    ∧ ScanEvent.id row = Some k
    ∧ ScanEvent.pharmacy_id row = 9
    ∧ ScanEvent.region_id row = None).
Proof.
  split.
  - apply (api_scan_region_absent (ex_scan_request (Some "cfc2J4gkTqE"))
             1700000000 ex_session "cfc2J4gkTqE" ex_orphan);
      [exact ex_store_tokens_generated | reflexivity | reflexivity |].
    right. exists 5. split; reflexivity.
  - apply (api_scan_region_absent (ex_scan_request (Some "Qw8-_x2LmN0"))
             1700000000 ex_session "Qw8-_x2LmN0" ex_unlinked);
      [exact ex_store_tokens_generated | reflexivity | reflexivity |].
    left. reflexivity.
Defined.

(** C10.  [api_scan] never reads [is_active]: on a store whose public ids are
    generated, a request naming a pharmacy that is inactive, or whose linked
    region is inactive, succeeds and appends one row for that pharmacy, and
    the response and the appended row are those obtained on the store in
    which every pharmacy and every region is active. *)
Theorem api_scan_ignores_is_active request utcnow s tok pharmacy :
  tokens_generated (store s) →
  pharmacy_public_id (json request) = Some tok →
  first_pharmacy_by_public_id tok (store s) = Some pharmacy →
  Pharmacy.is_active pharmacy = false
  ∨ (∃ rid region, Pharmacy.region_id pharmacy = Some rid
                   ∧ get_region rid (store s) = Some region
                   ∧ Region.is_active region = false) →
  ∃ k row s' s_active',
    api_scan request utcnow s
    = (JSONResponse [("ok", JBool true); ("scan_id", JInt k)] 200, s')
    ∧ scan_events (store s') = scan_events (store s) ++ [row]
    ∧ ScanEvent.id row = Some k
    ∧ ScanEvent.pharmacy_id row = Pharmacy.id pharmacy
    ∧ api_scan request utcnow (activate_session s)
      = (JSONResponse [("ok", JBool true); ("scan_id", JInt k)] 200, s_active')
    ∧ scan_events (store s_active') = scan_events (store s) ++ [row].
Proof.
  intros Htok Hp Hf _.
  pose proof (named_token_truthy _ _ _ Htok Hf) as Ht.
  destruct (api_scan_found_row request utcnow s tok pharmacy Hp Ht Hf)
    as (k & row & s' & Hrun & Hev & ->).
  exists k, (ScanEvent.with_id k (scan_of request utcnow pharmacy (store s))), s'.
  exists (activate_session s').
  split; [exact Hrun|]. split; [exact Hev|]. do 2 (split; [done|]).
  rewrite api_scan_activate, Hrun. split; [done|]. exact Hev.
Qed.

Lemma api_scan_ignores_is_active_witness :
  ∃ s' s_active',
    api_scan (ex_scan_request (Some "Hh7dK2mPq0s")) 1700000000 ex_session
    = (JSONResponse [("ok", JBool true); ("scan_id", JInt 12)] 200, s')
    ∧ api_scan (ex_scan_request (Some "Hh7dK2mPq0s")) 1700000000
        (activate_session ex_session)
      = (JSONResponse [("ok", JBool true); ("scan_id", JInt 12)] 200, s_active')
    ∧ scan_events (store s') = scan_events (store s_active')
    ∧ ScanEvent.region_id <$> scan_events (store s') = [Some 2].
Proof.
  destruct (api_scan_ignores_is_active (ex_scan_request (Some "Hh7dK2mPq0s"))
              1700000000 ex_session "Hh7dK2mPq0s" ex_closed)
    as (k & row & s' & sa & Hrun & Hev & Hid & _ & Hrun' & Hev');
    [exact ex_store_tokens_generated | reflexivity | reflexivity
    | left; reflexivity |].
  exists s', sa.
  assert (k = 12) as ->.
  { vm_compute in Hrun. injection Hrun as Hk _. by symmetry. }
  repeat split; [exact Hrun | exact Hrun' | by rewrite Hev, Hev' |].
  vm_compute in Hrun. injection Hrun as <-. reflexivity.
Defined.

(** ** Session-gated access *)

Lemma get_current_admin_run request s :
  get_current_admin request s
  = if_truthy (session request !! "user_id") (λ uid,
      (if_truthy (get_user uid (store s)) (λ user,
         if negb (User.is_active user) || negb (User.is_superuser user)
         then Raised unauthorized else Returned user)
         (Raised unauthorized),
       mkSession (store s) (executed s ++ [GetUser uid])))
    (Raised unauthorized, s).
Proof.
  unfold get_current_admin. cbv zeta.
  destruct (session request !! "user_id") as [uid|]; simpl; [|done].
  destruct (truthy uid); [|done].
  unfold mbind, DB_bind, session_get_user, log, query; simpl.
  destruct (get_user uid (store s)) as [user|]; simpl; [|done].
  by destruct (negb (User.is_active user) || negb (User.is_superuser user)).
Qed.

(** The outcome of [get_current_admin] on every store and every session
    mapping: it raises exactly when the stored user id is false as a truth
    value ([None] or [0]), or names no user row, or names a row that is
    inactive or not a superuser. *)
Lemma get_current_admin_raises_iff request s :
  (get_current_admin request s).1 = Raised unauthorized
  ↔ truthy (session request !! "user_id") = false
    ∨ ∃ uid, session request !! "user_id" = Some uid
        ∧ (get_user uid (store s) = None
           ∨ ∃ user, get_user uid (store s) = Some user
               ∧ (User.is_active user = false ∨ User.is_superuser user = false)).
Proof.
  rewrite get_current_admin_run.
  destruct (session request !! "user_id") as [uid|]; simpl; [|by split; auto].
  rewrite truthy_Some. destruct (truthy uid) eqn:Hu; [|by split; auto].
  simpl. destruct (get_user uid (store s)) as [user|] eqn:Hg; simpl.
  - split.
    + intros H. right. exists uid. split; [done|]. right. exists user.
      split; [done|].
      destruct (User.is_active user); [|by left].
      destruct (User.is_superuser user); [done | by right].
    + intros [H | (uid' & [= <-] & [Hn | (user' & Hg' & Hflags)])];
        [done | congruence |].
      assert (user' = user) as -> by congruence.
      destruct Hflags as [-> | ->]; [done | by rewrite orb_true_r].
  - split; [|done]. intros _. right. eauto.
Qed.

(** C5.  On a store whose user keys are database-assigned,
    [get_current_admin] raises [HTTPException(401)] if and only if the
    session holds no user id, or the id names no user row, or the row is
    inactive, or the row is not a superuser; in every other case it returns
    the row. *)
Theorem get_current_admin_unauthenticated_iff request s :
  keys_assigned User.id (users (store s)) →
  ((get_current_admin request s).1 = Raised (mkHTTPException 401)
   ↔ session request !! "user_id" = None
     ∨ ∃ uid, session request !! "user_id" = Some uid
         ∧ (get_user uid (store s) = None
            ∨ ∃ user, get_user uid (store s) = Some user
                ∧ (User.is_active user = false
                   ∨ User.is_superuser user = false)))
  ∧ (∀ uid user,
       session request !! "user_id" = Some uid →
       get_user uid (store s) = Some user →
       User.is_active user = true →
       User.is_superuser user = true →
       (get_current_admin request s).1 = Returned user).
Proof.
  intros Hkeys. split.
  - change (mkHTTPException 401) with unauthorized.
    rewrite get_current_admin_raises_iff. split.
    + intros [Hf | H]; [|by right].
      destruct (session request !! "user_id") as [uid|]; [|by left].
      rewrite truthy_Some in Hf.
      right. exists uid. split; [done|]. left.
      destruct (get_user uid (store s)) as [user|] eqn:Hg; [|done].
      pose proof (user_key_truthy _ _ _ Hkeys Hg). congruence.
    + intros [-> | H]; [by left | by right].
  - intros uid user Hs Hg Ha Hsu. rewrite get_current_admin_run, Hs.
    rewrite if_truthy_true by by eapply user_key_truthy.
    simpl. rewrite Hg. simpl. by rewrite Ha, Hsu.
Qed.

Lemma get_current_admin_unauthenticated_iff_witness :
  (get_current_admin (ex_admin_request {["user_id" := 1]}) ex_session).1
  = Returned ex_admin
  ∧ (get_current_admin (ex_admin_request {["user_id" := 3]}) ex_session).1
    = Raised (mkHTTPException 401)
  ∧ (get_current_admin (ex_admin_request ∅) ex_session).1
    = Raised (mkHTTPException 401).
Proof.
  split; [|split].
  - destruct (get_current_admin_unauthenticated_iff
                (ex_admin_request {["user_id" := 1]}) ex_session) as [_ Hret];
      [exact ex_store_user_keys |].
    apply (Hret 1 ex_admin); reflexivity.
  - destruct (get_current_admin_unauthenticated_iff
                (ex_admin_request {["user_id" := 3]}) ex_session) as [Hiff _];
      [exact ex_store_user_keys |].
    apply Hiff. right. exists 3. split; [reflexivity|].
    right. exists ex_retired. split; [reflexivity|]. left. reflexivity.
  - destruct (get_current_admin_unauthenticated_iff
                (ex_admin_request ∅) ex_session) as [Hiff _];
      [exact ex_store_user_keys |].
    apply Hiff. left. reflexivity.
Defined.

(** C6.  [admin_logout] always answers with the redirect to the login page
    and leaves an empty session mapping, whatever the session held; on that
    mapping [get_current_admin] raises [HTTPException(401)] without executing
    a statement. *)
Theorem admin_logout_then_unauthenticated request s :
  (admin_logout request).1 = RedirectResponse "/admin/login" 303
  ∧ (admin_logout request).2 = ∅
  ∧ get_current_admin (with_session request (admin_logout request).2) s
    = (Raised (mkHTTPException 401), s).
Proof. repeat split. Qed.

(** ** The admin login and the routes *)

Section AdminLoginProperties.
Variable verify_password : string → string → option bool.

Lemma admin_login_run request login password s :
  admin_login verify_password request login password s
  = (if_truthy (first_user_by_login login (store s)) (λ user,
       match verify_password password (User.password_hash user) with
       | None => (internal_server_error, session request)
       | Some verified =>
           if negb verified || negb (User.is_superuser user)
           then (invalid_credentials, session request)
           else (RedirectResponse "/admin" 303,
                 <["user_id" := User.id user]> (session request))
       end)
       (invalid_credentials, session request),
     mkSession (store s) (executed s ++ [SelectUserByLogin login])).
Proof.
  unfold admin_login, mbind, DB_bind, exec_first_user, log, query; simpl.
  destruct (first_user_by_login login (store s)) as [user|]; simpl; [|done].
  destruct (verify_password password (User.password_hash user))
    as [verified|]; [|done].
  by destruct (negb verified || negb (User.is_superuser user)).
Qed.

(** When the verifier returns, each of the three causes gets the generic
    answer, and the session mapping is left as it was. *)
Lemma admin_login_failure request login password s :
  LoginFailure verify_password (store s) login password →
  (admin_login verify_password request login password s).1
  = (invalid_credentials, session request).
Proof.
  rewrite admin_login_run. simpl.
  intros [-> | user -> Hv | user -> Hv Hs]; simpl; [done|..].
  - by rewrite Hv.
  - by rewrite Hv, Hs.
Qed.

(** C4.  The three causes do not always get the same answer.  When the
    login names a user row and [verify_password] raises on the submitted
    password, the attempt is answered with status 500 and not with the
    generic "Invalid credentials" form, which the same password gets under a
    login that names no user: the two answers differ, so the answer tells
    whether the login exists.  The session mapping is left as it was in both
    cases. *)
Theorem admin_login_verifier_raises
    request login password s user request' login' s' :
  first_user_by_login login (store s) = Some user →
  verify_password password (User.password_hash user) = None →
  first_user_by_login login' (store s') = None →
  (admin_login verify_password request login password s).1
  = (PlainTextResponse "Internal Server Error" 500, session request)
  ∧ (admin_login verify_password request' login' password s').1
    = (TemplateResponse "admin_login.html" (Some "Invalid credentials") 400,
       session request')
  ∧ (admin_login verify_password request login password s).1.1
    ≠ (admin_login verify_password request' login' password s').1.1.
Proof.
  intros Hf Hv Hn. rewrite !admin_login_run. simpl.
  rewrite Hf, Hn. simpl. rewrite Hv. done.
Qed.

(** C9.  [admin_login] never reads [is_active]: a user whose password
    verifies and who is a superuser is logged in although inactive (the
    response is the redirect to [/admin] and the session mapping holds the
    user's id); on a later request carrying that mapping,
    [get_current_admin] raises [HTTPException(401)] for as long as the id
    names that inactive row. *)
Theorem admin_login_inactive_superuser request login password s user :
  first_user_by_login login (store s) = Some user →
  verify_password password (User.password_hash user) = Some true →
  User.is_superuser user = true →
  User.is_active user = false →
  (admin_login verify_password request login password s).1
  = (RedirectResponse "/admin" 303,
     <["user_id" := User.id user]> (session request))
  ∧ (admin_login verify_password request login password s).1.2 !! "user_id"
    = Some (User.id user)
  ∧ ∀ later s_later,
      session later = (admin_login verify_password request login password s).1.2 →
      get_user (User.id user) (store s_later) = Some user →
      (get_current_admin later s_later).1 = Raised (mkHTTPException 401).
Proof.
  intros Hf Hv Hs Ha. rewrite admin_login_run. simpl.
  rewrite Hf. simpl. rewrite Hv, Hs. simpl.
  split; [done|]. split; [by rewrite lookup_insert_eq|].
  intros later s_later Hc Hg.
  apply get_current_admin_raises_iff. rewrite Hc, lookup_insert_eq.
  right. exists (User.id user). split; [done|]. right. exists user.
  split; [done|]. by left.
Qed.

(** C8.  Whatever route is served, the user, region and pharmacy tables
    are the same afterwards, the scan-event table keeps every row it had and
    gains at most one, and the write statements executed are exactly the
    inserts of the rows gained. *)
Theorem serve_only_inserts_scan_events route request s :
  users (store (serve verify_password route request s).2) = users (store s)
  ∧ regions (store (serve verify_password route request s).2) = regions (store s)
  ∧ pharmacies (store (serve verify_password route request s).2)
    = pharmacies (store s)
  ∧ ∃ new stmts,
      scan_events (store (serve verify_password route request s).2)
      = scan_events (store s) ++ new
      ∧ (length new ≤ 1)%nat
      ∧ executed (serve verify_password route request s).2
        = executed s ++ stmts
      ∧ List.filter is_write stmts = InsertScanEvent <$> new.
Proof.
  assert (∀ st : Store, ∀ ex : list Stmt,
            ∃ new stmts, scan_events st = scan_events st ++ new
              ∧ (length new ≤ 1)%nat ∧ ex = ex ++ stmts
              ∧ List.filter is_write stmts = InsertScanEvent <$> new) as Hnone.
  { intros st ex. exists [], []. rewrite !app_nil_r. simpl. auto with lia. }
  destruct route as [|utcnow| |login password|]; simpl.
  1,3,5: by repeat split; apply Hnone.
  - unfold mbind, DB_bind.
    destruct (pharmacy_public_id (json request)) as [tok|] eqn:Hp.
    2:{ rewrite api_scan_falsy by (by rewrite Hp). simpl.
        by repeat split; apply Hnone. }
    destruct (truthy tok) eqn:Ht.
    2:{ rewrite api_scan_falsy by (by rewrite Hp; rewrite truthy_Some). simpl.
        by repeat split; apply Hnone. }
    destruct (first_pharmacy_by_public_id tok (store s)) as [ph|] eqn:Hf.
    + rewrite (api_scan_found _ _ s tok ph) by done. simpl.
      do 3 (split; [done|]). eexists [_], _.
      split; [done|]. split; [simpl; lia|]. split; [done|].
      unfold region_stmts. destruct (Pharmacy.region_id ph) as [rid|]; simpl;
        [by destruct (truthy rid) | done].
    + rewrite (api_scan_not_found _ _ s tok) by done. simpl.
      do 3 (split; [done|]). exists [], [SelectPharmacyByPublicId tok].
      rewrite app_nil_r. simpl. auto with lia.
  - rewrite admin_login_run. simpl.
    do 3 (split; [done|]). exists [], [SelectUserByLogin login].
    rewrite app_nil_r. simpl. auto with lia.
Qed.
End AdminLoginProperties.

Lemma admin_login_verifier_raises_witness :
  (admin_login ex_verify_password (ex_admin_request ∅) "root" ex_nul_password
     ex_session).1
  = (PlainTextResponse "Internal Server Error" 500, ∅)
  ∧ (admin_login ex_verify_password (ex_admin_request ∅) "ghost"
       ex_nul_password ex_session).1
    = (TemplateResponse "admin_login.html" (Some "Invalid credentials") 400, ∅).
Proof.
  destruct (admin_login_verifier_raises ex_verify_password
              (ex_admin_request ∅) "root" ex_nul_password ex_session ex_admin
              (ex_admin_request ∅) "ghost" ex_session)
    as (Hroot & Hghost & _); [reflexivity..|].
  split; [exact Hroot | exact Hghost].
Defined.

Lemma admin_login_inactive_superuser_witness :
  (admin_login ex_verify_password (ex_admin_request ∅) "old-admin" "hunter2"
     ex_session).1
  = (RedirectResponse "/admin" 303, {["user_id" := 3]})
  ∧ (get_current_admin (ex_admin_request {["user_id" := 3]}) ex_session).1
    = Raised (mkHTTPException 401).
Proof.
  destruct (admin_login_inactive_superuser ex_verify_password
              (ex_admin_request ∅) "old-admin" "hunter2" ex_session ex_retired)
    as (Hrun & _ & Hlater); [reflexivity..|].
  split; [exact Hrun|].
  apply Hlater; [|reflexivity]. rewrite Hrun. reflexivity.
Defined.

(** ** Outside the invariants of the data model *)

(** A pharmacy stored with an empty [public_id] cannot be scanned: the empty
    token is turned down as missing before any lookup. *)
Example api_scan_empty_public_id :
  let s := mkSession (mkStore [] [ex_region]
                        [Pharmacy.mk 5 "Nameless" None "" true (Some 1)] [] 1) [] in
  first_pharmacy_by_public_id "" (store s)
  = Some (Pharmacy.mk 5 "Nameless" None "" true (Some 1))
  ∧ api_scan (ex_scan_request (Some "")) 1700000000 s
    = (missing_pharmacy_public_id, s).
Proof. split; reflexivity. Qed.

(** A region reference of [0] counts as no reference, even when a region
    row has the key [0]. *)
Example api_scan_region_key_zero :
  let s := mkSession (mkStore [] [Region.mk 0 "Zero" "Z0" "r0r0r0r0r0r" true]
                        [Pharmacy.mk 5 "Null Apotheke" None "abc123" true (Some 0)]
                        [] 1) [] in
  ScanEvent.region_id
    <$> scan_events (store (api_scan (ex_scan_request (Some "abc123"))
                              1700000000 s).2)
  = [None].
Proof. reflexivity. Qed.

(** A session that holds the user id [0] is unauthenticated, even when the
    user row with key [0] is an active superuser. *)
Example get_current_admin_user_id_zero :
  let s := mkSession (mkStore [User.mk 0 "zero" true true "hash:0"] [] [] [] 1) [] in
  get_current_admin (ex_admin_request {["user_id" := 0]}) s
  = (Raised unauthorized, s).
Proof. reflexivity. Qed.

(** * Further properties *)

(** ** Generated public ids *)

Example generate_public_id_docstring :
  generate_public_id ex_urandom = "cfc2J4gkTqE".
Proof. vm_compute. reflexivity. Qed.

Lemma list_ind3 {A} (P : list A → Prop) :
  P [] → (∀ a, P [a]) → (∀ a b, P [a; b]) →
  (∀ a b c l, P l → P (a :: b :: c :: l)) →
  ∀ l, P l.
Proof.
  intros H0 H1 H2 H3.
  assert (∀ l, P l ∧ (∀ a, P (a :: l)) ∧ (∀ a b, P (a :: b :: l))) as H.
  { induction l as [|x l (IH0 & IH1 & IH2)]; [by auto|].
    split; [apply IH1|]. split; [intros a; apply IH2|].
    intros a b. by apply H3. }
  intros l. apply H.
Qed.

Ltac sextet_lia := Z.div_mod_to_equations; lia.

Lemma byte_val_range b : is_byte_val (byte_val b).
Proof.
  unfold is_byte_val, byte_val. pose proof (Byte.to_N_bounded b). lia.
Qed.

Lemma byte_val_inj b1 b2 : byte_val b1 = byte_val b2 → b1 = b2.
Proof.
  unfold byte_val. intros H. apply N2Z.inj in H.
  pose proof (Byte.of_to_N b1) as H1. rewrite H, Byte.of_to_N in H1.
  by injection H1.
Qed.

Lemma byte_vals_inj (l1 l2 : list byte) :
  byte_val <$> l1 = byte_val <$> l2 → l1 = l2.
Proof.
  revert l2. induction l1 as [|b1 l1 IH]; intros [|b2 l2]; simpl; try done.
  intros [= Hb Hl]. f_equal; [by apply byte_val_inj | by apply IH].
Qed.

Lemma b64_sextets_range bs :
  Forall is_byte_val bs → Forall is_sextet (b64_sextets bs).
Proof.
  unfold is_byte_val, is_sextet.
  induction bs as [|a|a b|a b c l IH] using list_ind3; simpl; intros Hb.
  - apply Forall_nil_2.
  - inversion_clear Hb. repeat (apply Forall_cons_2; [cbv beta; sextet_lia|]). apply Forall_nil_2.
  - inversion_clear Hb as [|?? Ha Hb']. inversion_clear Hb' as [|?? Hb Hn].
    repeat (apply Forall_cons_2; [cbv beta; sextet_lia|]). apply Forall_nil_2.
  - inversion_clear Hb as [|?? Ha Hb']. inversion_clear Hb' as [|?? Hb Hc'].
    inversion_clear Hc' as [|?? Hc Hl].
    repeat (apply Forall_cons_2; [cbv beta; sextet_lia|]). by apply IH.
Qed.

Lemma b64_octets_sextets bs :
  Forall is_byte_val bs → b64_octets (b64_sextets bs) = bs.
Proof.
  unfold is_byte_val.
  induction bs as [|a|a b|a b c l IH] using list_ind3; simpl; intros Hb.
  - done.
  - inversion_clear Hb. f_equal. sextet_lia.
  - inversion_clear Hb as [|?? Ha Hb']. inversion_clear Hb' as [|?? Hb Hn].
    repeat f_equal; sextet_lia.
  - inversion_clear Hb as [|?? Ha Hb']. inversion_clear Hb' as [|?? Hb Hc'].
    inversion_clear Hc' as [|?? Hc Hl].
    rewrite IH by done. repeat f_equal; sextet_lia.
Qed.

Lemma b64_sextets_length bs :
  length (b64_sextets bs) = ((4 * length bs + 2) / 3)%nat.
Proof.
  induction bs as [|a|a b|a b c l IH] using list_ind3; [done..|].
  cbn [b64_sextets length]. rewrite IH. generalize (length l). intros n.
  replace (4 * S (S (S n)) + 2)%nat with ((4 * n + 2) + 4 * 3)%nat by lia.
  rewrite Nat.div_add by done. lia.
Qed.

Lemma pad_not_in_alphabet : "="%char ∉ urlsafe_alphabet.
Proof. apply (bool_decide_unpack _). vm_compute. exact I. Qed.

Lemma urlsafe_alphabet_NoDup : NoDup urlsafe_alphabet.
Proof. apply (bool_decide_unpack _). vm_compute. exact I. Qed.

Lemma b64_char_lookup s :
  is_sextet s → urlsafe_alphabet !! Z.to_nat s = Some (b64_char s).
Proof.
  unfold is_sextet, b64_char. intros Hs.
  destruct (lookup_lt_is_Some_2 urlsafe_alphabet (Z.to_nat s)) as [c Hc];
    [change (length urlsafe_alphabet) with 64%nat; lia|].
  by rewrite Hc.
Qed.

Lemma b64_char_alphabet s : is_sextet s → b64_char s ∈ urlsafe_alphabet.
Proof. intros Hs. eapply list_elem_of_lookup_2, b64_char_lookup, Hs. Qed.

Lemma b64_char_inj s1 s2 :
  is_sextet s1 → is_sextet s2 → b64_char s1 = b64_char s2 → s1 = s2.
Proof.
  intros H1 H2 Heq.
  pose proof (b64_char_lookup s1 H1) as L1.
  pose proof (b64_char_lookup s2 H2) as L2. rewrite <- Heq in L2.
  pose proof (NoDup_lookup _ _ _ _ urlsafe_alphabet_NoDup L1 L2).
  unfold is_sextet in *. lia.
Qed.

Lemma b64_chars_inj l1 l2 :
  Forall is_sextet l1 → Forall is_sextet l2 →
  b64_char <$> l1 = b64_char <$> l2 → l1 = l2.
Proof.
  intros H1. revert l2. induction H1 as [|s1 l1 Hs1 _ IH];
    intros [|s2 l2] H2; simpl; try done.
  inversion_clear H2 as [|?? Hs2 Hl2]. intros [= Hc Hl].
  f_equal; [by apply b64_char_inj | by apply IH].
Qed.

Lemma rstrip_all c pad : Forall (λ x, x = c) pad → rstrip c pad = [].
Proof.
  induction 1 as [|x pad -> _ IH]; simpl; [done|].
  rewrite IH. by rewrite decide_True.
Qed.

Lemma rstrip_app c l pad :
  Forall (λ x, x ≠ c) l → Forall (λ x, x = c) pad → rstrip c (l ++ pad) = l.
Proof.
  intros Hl Hp. induction Hl as [|x l Hx Hl IH]; simpl.
  - by apply rstrip_all.
  - rewrite IH. destruct l; [by rewrite decide_False | done].
Qed.

Lemma b64_padding_all n : Forall (λ x, x = "="%char) (b64_padding n).
Proof.
  unfold b64_padding. destruct (n mod 3)%nat as [|[|[|?]]]; repeat constructor.
Qed.

Lemma byte_vals_range (tok : list byte) : Forall is_byte_val (byte_val <$> tok).
Proof. apply Forall_fmap, Forall_true, byte_val_range. Qed.

(** Stripping the padding leaves exactly the encoded characters. *)
Lemma rstrip_urlsafe_b64encode tok :
  rstrip "="%char (urlsafe_b64encode tok)
  = b64_char <$> b64_sextets (byte_val <$> tok).
Proof.
  unfold urlsafe_b64encode. apply rstrip_app; [|apply b64_padding_all].
  apply Forall_fmap.
  eapply Forall_impl; [apply b64_sextets_range, byte_vals_range|].
  intros s Hs Heq. apply pad_not_in_alphabet. rewrite <- Heq.
  by apply b64_char_alphabet.
Qed.

Lemma token_urlsafe_chars nbytes urandom :
  String.list_ascii_of_string (token_urlsafe nbytes urandom)
  = b64_char <$> b64_sextets (byte_val <$> take nbytes urandom).
Proof.
  unfold token_urlsafe. cbv zeta.
  by rewrite String.list_ascii_of_string_of_list_ascii, rstrip_urlsafe_b64encode.
Qed.

Lemma string_length_chars s :
  String.length s = length (String.list_ascii_of_string s).
Proof. induction s as [|c s IH]; simpl; [done | by rewrite IH]. Qed.

Lemma generate_public_id_chars urandom :
  (8 ≤ length urandom)%nat →
  String.length (generate_public_id urandom) = 11%nat.
Proof.
  intros Hlen. rewrite string_length_chars. unfold generate_public_id.
  rewrite token_urlsafe_chars, length_fmap, b64_sextets_length, length_fmap.
  rewrite length_take, Nat.min_l by done. reflexivity.
Qed.

Lemma generate_public_id_truthy urandom :
  (8 ≤ length urandom)%nat → truthy (generate_public_id urandom) = true.
Proof.
  intros Hlen. apply truthy_str_iff. intros Heq.
  pose proof (generate_public_id_chars urandom Hlen) as Hl.
  by rewrite Heq in Hl.
Qed.

(** X1.  With eight random bytes at hand, [generate_public_id] returns a
    string of exactly eleven characters; in particular the id is not empty,
    so it is true as a Python truth value. *)
Theorem generate_public_id_length urandom :
  (8 ≤ length urandom)%nat →
  String.length (generate_public_id urandom) = 11%nat
  ∧ generate_public_id urandom ≠ ""
  ∧ truthy (generate_public_id urandom) = true.
Proof.
  intros Hlen. split; [by apply generate_public_id_chars|].
  split; [|by apply generate_public_id_truthy].
  by apply truthy_str_iff, generate_public_id_truthy.
Qed.

Lemma generate_public_id_length_witness :
  String.length (generate_public_id ex_urandom) = 11%nat
  ∧ generate_public_id ex_urandom ≠ ""
  ∧ truthy (generate_public_id ex_urandom) = true.
Proof. apply (generate_public_id_length ex_urandom). simpl. lia. Defined.

(** X2.  Every character of a generated public id is a letter, a digit,
    [-] or [_]: the id can be put in a URL or a QR payload as it is, and it
    never contains the padding character [=]. *)
Theorem generate_public_id_urlsafe urandom :
  Forall (λ c, c ∈ urlsafe_alphabet ∧ c ≠ "="%char)
         (String.list_ascii_of_string (generate_public_id urandom)).
Proof.
  unfold generate_public_id. rewrite token_urlsafe_chars. apply Forall_fmap.
  eapply Forall_impl; [apply b64_sextets_range, byte_vals_range|].
  intros s Hs. simpl. split; [by apply b64_char_alphabet|].
  intros Heq. apply pad_not_in_alphabet. rewrite <- Heq.
  by apply b64_char_alphabet.
Qed.

(** X3.  Two generated public ids are equal exactly when the eight random
    bytes they were made from are equal: the encoding itself never makes two
    ids collide. *)
Theorem generate_public_id_inj urandom1 urandom2 :
  generate_public_id urandom1 = generate_public_id urandom2
  ↔ take 8 urandom1 = take 8 urandom2.
Proof.
  split.
  - intros Heq. apply (f_equal String.list_ascii_of_string) in Heq.
    unfold generate_public_id in Heq. rewrite !token_urlsafe_chars in Heq.
    apply b64_chars_inj in Heq;
      [|apply b64_sextets_range, byte_vals_range..].
    apply (f_equal b64_octets) in Heq.
    rewrite !b64_octets_sextets in Heq by apply byte_vals_range.
    by apply byte_vals_inj.
  - unfold generate_public_id, token_urlsafe. by intros ->.
Qed.

(** X4.  A request carrying a generated public id always gets past the
    missing-field test of [api_scan]: the pharmacy lookup is executed with
    that id, and the answer is "Unknown pharmacy" when no pharmacy has it and
    a stored scan when one has. *)
Theorem api_scan_generated_token request utcnow s urandom :
  (8 ≤ length urandom)%nat →
  pharmacy_public_id (json request) = Some (generate_public_id urandom) →
  (first_pharmacy_by_public_id (generate_public_id urandom) (store s) = None →
   api_scan request utcnow s
   = (JSONResponse [("ok", JBool false); ("error", JStr "Unknown pharmacy")] 400,
      mkSession (store s)
        (executed s ++ [SelectPharmacyByPublicId (generate_public_id urandom)])))
  ∧ (∀ pharmacy,
       first_pharmacy_by_public_id (generate_public_id urandom) (store s)
       = Some pharmacy →
       ∃ k row s',
         api_scan request utcnow s
         = (JSONResponse [("ok", JBool true); ("scan_id", JInt k)] 200, s')
         ∧ scan_events (store s') = scan_events (store s) ++ [row]
         ∧ ScanEvent.id row = Some k
         ∧ ScanEvent.pharmacy_id row = Pharmacy.id pharmacy).
Proof.
  intros Hlen Hp.
  pose proof (generate_public_id_truthy urandom Hlen) as Ht.
  split.
  - intros Hn. by rewrite (api_scan_not_found _ _ _ _ Hp Ht Hn).
  - intros pharmacy Hf.
    destruct (api_scan_found_row request utcnow s _ pharmacy Hp Ht Hf)
      as (k & row & s' & Hrun & Hev & ->).
    by exists k, (ScanEvent.with_id k (scan_of request utcnow pharmacy (store s))), s'.
Qed.

Lemma api_scan_generated_token_witness :
  ∃ k row s',
    api_scan (ex_scan_request (Some "cfc2J4gkTqE")) 1700000000 ex_session
    = (JSONResponse [("ok", JBool true); ("scan_id", JInt k)] 200, s')
    ∧ scan_events (store s') = scan_events (store ex_session) ++ [row]
    ∧ ScanEvent.id row = Some k
    ∧ ScanEvent.pharmacy_id row = 8.
Proof.
  destruct (api_scan_generated_token (ex_scan_request (Some "cfc2J4gkTqE"))
              1700000000 ex_session ex_urandom) as [_ Hfound];
    [simpl; lia | vm_compute; reflexivity |].
  apply (Hfound ex_orphan). vm_compute. reflexivity.
Defined.

(** ** The scan-ingest handler, continued *)

Lemma api_scan_users request utcnow s :
  users (store (api_scan request utcnow s).2) = users (store s).
Proof.
  destruct (pharmacy_public_id (json request)) as [tok|] eqn:Hp.
  2:{ by rewrite api_scan_falsy by (by rewrite Hp). }
  destruct (truthy tok) eqn:Ht.
  2:{ by rewrite api_scan_falsy by (by rewrite Hp). }
  destruct (first_pharmacy_by_public_id tok (store s)) as [ph|] eqn:Hf.
  - by rewrite (api_scan_found _ _ s tok ph).
  - by rewrite (api_scan_not_found _ _ s tok).
Qed.

Lemma api_scan_bad_request request utcnow s :
  status_code (api_scan request utcnow s).1 = 400 →
  store (api_scan request utcnow s).2 = store s.
Proof.
  destruct (pharmacy_public_id (json request)) as [tok|] eqn:Hp.
  2:{ by rewrite api_scan_falsy by (by rewrite Hp). }
  destruct (truthy tok) eqn:Ht.
  2:{ by rewrite api_scan_falsy by (by rewrite Hp). }
  destruct (first_pharmacy_by_public_id tok (store s)) as [ph|] eqn:Hf.
  - by rewrite (api_scan_found _ _ s tok ph).
  - by rewrite (api_scan_not_found _ _ s tok).
Qed.

(** X5.  [api_scan] answers in exactly one of three ways, decided by the
    token alone and then by the lookup alone, and it stores a scan event
    exactly when it answers ok: both error answers leave the store as it
    was. *)
Theorem api_scan_outcomes request utcnow s :
  (truthy (pharmacy_public_id (json request)) = false
   ∧ api_scan request utcnow s = (missing_pharmacy_public_id, s))
  ∨ (∃ tok,
       pharmacy_public_id (json request) = Some tok ∧ tok ≠ ""
       ∧ first_pharmacy_by_public_id tok (store s) = None
       ∧ (api_scan request utcnow s).1 = unknown_pharmacy
       ∧ store (api_scan request utcnow s).2 = store s)
  ∨ (∃ tok pharmacy k row,
       pharmacy_public_id (json request) = Some tok ∧ tok ≠ ""
       ∧ first_pharmacy_by_public_id tok (store s) = Some pharmacy
       ∧ (api_scan request utcnow s).1
         = JSONResponse [("ok", JBool true); ("scan_id", JInt k)] 200
       ∧ scan_events (store (api_scan request utcnow s).2)
         = scan_events (store s) ++ [row]
       ∧ ScanEvent.id row = Some k
       ∧ ScanEvent.pharmacy_id row = Pharmacy.id pharmacy).
Proof.
  destruct (truthy (pharmacy_public_id (json request))) eqn:Ht.
  2:{ left. split; [done|]. by apply api_scan_falsy. }
  right. destruct (pharmacy_public_id (json request)) as [tok|] eqn:Hp; [|done].
  rewrite truthy_Some in Ht. pose proof (proj1 (truthy_str_iff tok) Ht) as Hne.
  destruct (first_pharmacy_by_public_id tok (store s)) as [ph|] eqn:Hf.
  - right. destruct (api_scan_found_row request utcnow s tok ph) as
      (k & row & s' & Hrun & Hev & ->); [done..|].
    exists tok, ph, k, (ScanEvent.with_id k (scan_of request utcnow ph (store s))).
    rewrite Hrun. done.
  - left. exists tok. rewrite (api_scan_not_found _ _ _ tok) by done. done.
Qed.

Lemma resolved_region_in pharmacy db region :
  resolved_region pharmacy db = Some region → region ∈ regions db.
Proof.
  unfold resolved_region.
  destruct (Pharmacy.region_id pharmacy) as [rid|]; simpl; [|done].
  destruct (truthy rid); [|done]. intros Hg. by apply get_region_id in Hg as [_ ?].
Qed.

Lemma references_ok_insert request utcnow pharmacy db :
  pharmacy ∈ pharmacies db →
  references_ok db →
  references_ok (insert_scan_event (scan_of request utcnow pharmacy db) db).
Proof.
  unfold references_ok. simpl. intros Hin Hok.
  apply Forall_app. split; [done|]. apply Forall_singleton. simpl. split.
  - by exists pharmacy.
  - intros rid Hr.
    destruct (resolved_region pharmacy db) as [r|] eqn:Hres; [|done].
    simpl in Hr. injection Hr as <-. exists r. split; [|done].
    by eapply resolved_region_in.
Qed.

(** X6.  The foreign keys of the scan-event table stay valid: if every
    stored scan event references an existing pharmacy, and an existing
    region when it names one, the same holds after [api_scan], whatever the
    request. *)
Theorem api_scan_keeps_references request utcnow s :
  references_ok (store s) →
  references_ok (store (api_scan request utcnow s).2).
Proof.
  intros Hok.
  destruct (pharmacy_public_id (json request)) as [tok|] eqn:Hp.
  2:{ by rewrite api_scan_falsy by (by rewrite Hp). }
  destruct (truthy tok) eqn:Ht.
  2:{ by rewrite api_scan_falsy by (by rewrite Hp). }
  destruct (first_pharmacy_by_public_id tok (store s)) as [ph|] eqn:Hf.
  - rewrite (api_scan_found _ _ s tok ph) by done. simpl.
    apply references_ok_insert; [|done].
    by apply first_pharmacy_public_id in Hf as [_ ?].
  - by rewrite (api_scan_not_found _ _ s tok).
Qed.

Lemma api_scan_keeps_references_witness :
  references_ok
    (store (api_scan (ex_scan_request (Some "abc123")) 1700000000 ex_session).2).
Proof.
  apply (api_scan_keeps_references (ex_scan_request (Some "abc123"))
           1700000000 ex_session).
  unfold references_ok. simpl. apply Forall_nil_2.
Defined.

(** X7.  [api_scan] does not deduplicate: the same request submitted twice
    is stored twice.  Both submissions are answered ok with different scan
    ids, and the two rows appended agree in everything but their key and
    their timestamp. *)
Theorem api_scan_twice request t1 t2 s tok pharmacy :
  pharmacy_public_id (json request) = Some tok →
  tok ≠ "" →
  first_pharmacy_by_public_id tok (store s) = Some pharmacy →
  ∃ k1 k2 row1 row2,
    (api_scan request t1 s).1
    = JSONResponse [("ok", JBool true); ("scan_id", JInt k1)] 200
    ∧ (api_scan request t2 (api_scan request t1 s).2).1
      = JSONResponse [("ok", JBool true); ("scan_id", JInt k2)] 200
    ∧ k1 ≠ k2
    ∧ scan_events (store (api_scan request t2 (api_scan request t1 s).2).2)
      = scan_events (store s) ++ [row1; row2]
    ∧ ScanEvent.id row1 = Some k1 ∧ ScanEvent.id row2 = Some k2
    ∧ ScanEvent.scanned_at row1 = t1 ∧ ScanEvent.scanned_at row2 = t2
    ∧ ScanEvent.pharmacy_id row2 = ScanEvent.pharmacy_id row1
    ∧ ScanEvent.region_id row2 = ScanEvent.region_id row1
    ∧ ScanEvent.latitude row2 = ScanEvent.latitude row1
    ∧ ScanEvent.longitude row2 = ScanEvent.longitude row1
    ∧ ScanEvent.raw_qr row2 = ScanEvent.raw_qr row1
    ∧ ScanEvent.user_agent row2 = ScanEvent.user_agent row1
    ∧ ScanEvent.ip_address row2 = ScanEvent.ip_address row1.
Proof.
  intros Hp Hne Hf. apply truthy_str_iff in Hne.
  rewrite (api_scan_found request t1 s tok pharmacy) by done. simpl.
  rewrite (api_scan_found request t2 _ tok pharmacy) by done. simpl.
  exists (scanevent_id_seq (store s)), (scanevent_id_seq (store s) + 1).
  eexists _, _. split; [reflexivity|]. split; [reflexivity|].
  split; [lia|]. split; [by rewrite <- (assoc_L (++))|].
  repeat split.
Qed.

Lemma api_scan_twice_witness :
  ScanEvent.pharmacy_id
    <$> scan_events
          (store (api_scan (ex_scan_request (Some "abc123")) 1700000060
                    (api_scan (ex_scan_request (Some "abc123")) 1700000000
                       ex_session).2).2)
  = [7; 7].
Proof.
  destruct (api_scan_twice (ex_scan_request (Some "abc123")) 1700000000
              1700000060 ex_session "abc123" ex_pharmacy)
    as (k1 & k2 & row1 & row2 & _ & _ & _ & Hev & _);
    [reflexivity | discriminate | reflexivity |].
  rewrite Hev. vm_compute in Hev. injection Hev as <- <-. reflexivity.
Defined.

(** ** Session-gated access, continued *)

(** X8.  Whoever [get_current_admin] returns is a row of the user table
    that is active and a superuser, and whose key is the non-zero user id
    held by the session. *)
Theorem get_current_admin_returns_admin request s user :
  (get_current_admin request s).1 = Returned user →
  session request !! "user_id" = Some (User.id user)
  ∧ User.id user ≠ 0
  ∧ user ∈ users (store s)
  ∧ User.is_active user = true
  ∧ User.is_superuser user = true.
Proof.
  rewrite get_current_admin_run.
  destruct (session request !! "user_id") as [uid|]; simpl; [|done].
  destruct (truthy uid) eqn:Hu; simpl; [|done].
  destruct (get_user uid (store s)) as [u|] eqn:Hg; simpl; [|done].
  destruct (User.is_active u) eqn:Ha, (User.is_superuser u) eqn:Hs; simpl;
    try done.
  intros [= <-]. apply get_user_id in Hg as [<- Hin].
  apply truthy_int_iff in Hu. done.
Qed.

Lemma get_current_admin_returns_admin_witness :
  session (ex_admin_request {["user_id" := 1]}) !! "user_id" = Some 1
  ∧ User.is_active ex_admin = true
  ∧ User.is_superuser ex_admin = true.
Proof.
  destruct (get_current_admin_returns_admin
              (ex_admin_request {["user_id" := 1]}) ex_session ex_admin)
    as (Hs & _ & _ & Ha & Hsu); [reflexivity|].
  split; [exact Hs|]. split; [exact Ha | exact Hsu].
Defined.

(** X9.  [get_current_admin] only reads: the store is the same afterwards,
    and it executes no statement when the session holds no user id (or the
    id [0]) and otherwise the single key lookup of that user. *)
Theorem get_current_admin_read_only request s :
  store (get_current_admin request s).2 = store s
  ∧ executed (get_current_admin request s).2
    = executed s
      ++ if_truthy (session request !! "user_id") (λ uid, [GetUser uid]) [].
Proof.
  rewrite get_current_admin_run.
  destruct (session request !! "user_id") as [uid|]; simpl;
    [|by rewrite app_nil_r].
  destruct (truthy uid); simpl; [done | by rewrite app_nil_r].
Qed.

(** ** The admin login and the routes, continued *)

Section AdminLoginMore.
Variable verify_password : string → string → option bool.


(** X11.  Logging in and then asking for the current admin gives back the
    user that logged in: for an active superuser whose password verifies and
    whose non-zero key finds its own row, [get_current_admin] on the request
    that carries the session written by [admin_login] returns that row. *)
Theorem admin_login_then_current_admin request login password s user :
  first_user_by_login login (store s) = Some user →
  verify_password password (User.password_hash user) = Some true →
  User.is_superuser user = true →
  User.is_active user = true →
  User.id user ≠ 0 →
  get_user (User.id user) (store s) = Some user →
  (get_current_admin
     (with_session request
        (admin_login verify_password request login password s).1.2)
     (admin_login verify_password request login password s).2).1
  = Returned user.
Proof.
  intros Hf Hv Hs Ha Hne Hg. rewrite admin_login_run. simpl.
  rewrite Hf. simpl. rewrite Hv, Hs. simpl.
  rewrite get_current_admin_run. simpl. rewrite lookup_insert_eq.
  apply truthy_int_iff in Hne. rewrite if_truthy_true by done. simpl.
  rewrite Hg. simpl. by rewrite Ha, Hs.
Qed.

Lemma admin_login_store request login password s :
  store (admin_login verify_password request login password s).2 = store s.
Proof. by rewrite admin_login_run. Qed.

Lemma admin_login_session_cases request login password s :
  (admin_login verify_password request login password s).1
  = (invalid_credentials, session request)
  ∨ (admin_login verify_password request login password s).1
    = (internal_server_error, session request)
  ∨ ∃ user,
      (admin_login verify_password request login password s).1
      = (RedirectResponse "/admin" 303,
         <["user_id" := User.id user]> (session request)).
Proof.
  rewrite admin_login_run. simpl.
  destruct (first_user_by_login login (store s)) as [user|]; simpl; [|by left].
  destruct (verify_password password (User.password_hash user))
    as [verified|]; [|by right; left].
  destruct (negb verified || negb (User.is_superuser user));
    [by left | right; right; by exists user].
Qed.

(** X12.  A request answered with status 400 has no effect: on every route,
    such an answer leaves the store and the session mapping as they were. *)
Theorem serve_bad_request_no_effect route request s :
  status_code (serve verify_password route request s).1.1 = 400 →
  store (serve verify_password route request s).2 = store s
  ∧ (serve verify_password route request s).1.2 = session request.
Proof.
  destruct route as [|utcnow| |login password|]; simpl; try done.
  - unfold mbind, DB_bind.
    pose proof (api_scan_bad_request request utcnow s) as Hbad.
    destruct (api_scan request utcnow s) as [r s']. simpl in *. auto.
  - intros H400. split; [apply admin_login_store|].
    destruct (admin_login_session_cases request login password s)
      as [Hr | [Hr | [user Hr]]]; rewrite Hr in *; done.
Qed.

(** X13.  Only a redirect changes who is logged in: on every route, unless
    the answer is a redirect (a successful login, or a logout),
    [get_current_admin] gives the same outcome after the request as
    before. *)
Theorem serve_keeps_current_admin route request s :
  (∀ url code,
     (serve verify_password route request s).1.1 ≠ RedirectResponse url code) →
  (get_current_admin
     (with_session request (serve verify_password route request s).1.2)
     (serve verify_password route request s).2).1
  = (get_current_admin request s).1.
Proof.
  intros Hnr.
  assert (users (store (serve verify_password route request s).2)
          = users (store s)
          ∧ (serve verify_password route request s).1.2 = session request)
    as [Hu Hs].
  { destruct route as [|utcnow| |login password|]; simpl in *.
    - done.
    - unfold mbind, DB_bind.
      pose proof (api_scan_users request utcnow s) as Hus.
      by destruct (api_scan request utcnow s) as [r s'].
    - done.
    - split; [by rewrite admin_login_store|].
      destruct (admin_login_session_cases request login password s)
        as [Hr | [Hr | [user Hr]]]; rewrite Hr in *; [done..|].
      exfalso. by eapply Hnr.
    - exfalso. by eapply Hnr. }
  rewrite !get_current_admin_run. simpl. rewrite Hs.
  unfold get_user. rewrite Hu.
  destruct (session request !! "user_id") as [uid|]; simpl; [|done].
  by destruct (truthy uid).
Qed.
End AdminLoginMore.

Lemma admin_login_then_current_admin_witness :
  (get_current_admin
     (with_session (ex_admin_request ∅)
        (admin_login ex_verify_password (ex_admin_request ∅) "root" "s3cret"
           ex_session).1.2)
     (admin_login ex_verify_password (ex_admin_request ∅) "root" "s3cret"
        ex_session).2).1
  = Returned ex_admin.
Proof.
  apply (admin_login_then_current_admin ex_verify_password
           (ex_admin_request ∅) "root" "s3cret" ex_session ex_admin);
    [reflexivity | reflexivity | reflexivity | reflexivity | discriminate
    | reflexivity].
Defined.

Lemma serve_bad_request_no_effect_witness :
  store (serve ex_verify_password (POST_admin_login "root" "wrong")
           (ex_admin_request {["user_id" := 1]}) ex_session).2
  = ex_store
  ∧ (serve ex_verify_password (POST_admin_login "root" "wrong")
       (ex_admin_request {["user_id" := 1]}) ex_session).1.2
    = {["user_id" := 1]}.
Proof.
  destruct (serve_bad_request_no_effect ex_verify_password
              (POST_admin_login "root" "wrong")
              (ex_admin_request {["user_id" := 1]}) ex_session) as [Hs Hc];
    [reflexivity|].
  split; [exact Hs | exact Hc].
Defined.

Lemma serve_keeps_current_admin_witness :
  (get_current_admin
     (with_session (ex_admin_request {["user_id" := 1]})
        (serve ex_verify_password (POST_api_scan 1700000000)
           (ex_admin_request {["user_id" := 1]}) ex_session).1.2)
     (serve ex_verify_password (POST_api_scan 1700000000)
        (ex_admin_request {["user_id" := 1]}) ex_session).2).1
  = (get_current_admin (ex_admin_request {["user_id" := 1]}) ex_session).1.
Proof.
  apply (serve_keeps_current_admin ex_verify_password
           (POST_api_scan 1700000000)
           (ex_admin_request {["user_id" := 1]}) ex_session).
  intros url code. vm_compute. discriminate.
Defined.
